(** * GeoDjango geometry fields: [django/contrib/gis/db/models/fields/__init__.py]

    A shallow embedding of [GeometryField] and its seven subclasses, and the
    properties of its lookup/save translation layer.

    The module is glue code between collaborators that live in other modules
    (the spatial backend, the [Distance] measure class, the spatial reference
    table).  Those collaborators are taken as parameters (type classes
    [SpatialBackendT] and [Imports]); everything the field module itself
    decides -- branching, unpacking, exception translation, SRID defaulting,
    the in-place update of the geometry -- is embedded from the source. *)

From Stdlib Require Import ZArith String List Bool.
From stdpp Require Import base option gmap strings list.

Set Warnings "-register-all".

Local Open Scope Z_scope.
Local Open Scope string_scope.
Local Open Scope list_scope.

(** ** Python exceptions and results *)

(** The exception classes the module raises or catches; any other class a
    collaborator may raise is [OtherError cls msg]. *)
Inductive exn : Type :=
| TypeError (msg : string)
| ValueError (msg : string)
| IndexError (msg : string)
| GeometryException (msg : string)
| OtherError (cls msg : string).

Inductive result (A : Type) : Type :=
| Return (a : A)
| Raise (e : exn).
Arguments Return {A} a.
Arguments Raise {A} e.

#[global] Instance result_ret : MRet result := fun A a => Return a.
#[global] Instance result_bind : MBind result := fun A B f m =>
  match m with
  | Return a => f a
  | Raise e => Raise e
  end.
#[global] Instance result_fmap : FMap result := fun A B f m =>
  match m with
  | Return a => Return (f a)
  | Raise e => Raise e
  end.

Definition is_TypeError {A} (r : result A) : bool :=
  match r with Raise (TypeError _) => true | _ => false end.
Definition is_ValueError {A} (r : result A) : bool :=
  match r with Raise (ValueError _) => true | _ => false end.
Definition is_GeometryException {A} (r : result A) : bool :=
  match r with Raise (GeometryException _) => true | _ => false end.
(** [except SpatialBackend.GeometryException] catches this class only. *)
Definition exn_is_GeometryException (e : exn) : bool :=
  match e with GeometryException _ => true | _ => false end.
Definition is_Return {A} (r : result A) : bool :=
  match r with Return _ => true | _ => false end.

(** The class of an exception, its message left aside. *)
Definition exn_class (e : exn) : string :=
  match e with
  | TypeError _ => "TypeError"
  | ValueError _ => "ValueError"
  | IndexError _ => "IndexError"
  | GeometryException _ => "GeometryException"
  | OtherError cls _ => cls
  end.

(** Two results agree when both return the same value or both raise an
    exception of the same class. *)
Definition agree {A} (r1 r2 : result A) : Prop :=
  match r1, r2 with
  | Return a, Return b => a = b
  | Raise e1, Raise e2 => exn_class e1 = exn_class e2
  | _, _ => False
  end.

(** [lookup_type in SpatialBackend.gis_terms] on names. *)
Definition py_in (s : string) (l : list string) : bool :=
  existsb (String.eqb s) l.

(** Object identities of geometry objects. *)
Definition loc : Type := positive.

(** ** The class statements of the module *)

(** [class GeometryField(SpatialBackend.Field)] and the seven
    [class XField(GeometryField)] statements. *)
Inductive FieldClass : Type :=
| GeometryField
| PointField
| LineStringField
| PolygonField
| MultiPointField
| MultiLineStringField
| MultiPolygonField
| GeometryCollectionField.

#[global] Instance FieldClass_eq_dec : EqDecision FieldClass.
Proof. solve_decision. Defined.

(** Every class the module defines, in source order. *)
Definition module_classes : list FieldClass :=
  [GeometryField; PointField; LineStringField; PolygonField; MultiPointField;
   MultiLineStringField; MultiPolygonField; GeometryCollectionField].

(** The base written in the class statement; [None] is the backend's
    [SpatialBackend.Field], which lives outside this module. *)
Definition base (c : FieldClass) : option FieldClass :=
  match c with
  | GeometryField => None
  | _ => Some GeometryField
  end.

Definition subclasses (b : FieldClass) : list FieldClass :=
  filter (fun c => base c = Some b) module_classes.

(** Method resolution order inside the module (single inheritance). *)
Fixpoint mro_fuel (n : nat) (c : FieldClass) : list FieldClass :=
  match n with
  | O => [c]
  | S n' => c :: match base c with
                 | Some b => mro_fuel n' b
                 | None => []
                 end
  end.
Definition mro (c : FieldClass) : list FieldClass :=
  mro_fuel (length module_classes) c.

Section Model.
(** Python numbers (int or float), [Distance] instances and the geometry
    engine's shapes are opaque to this module: it only passes them on. *)
Context {Num Dist Shape : Type}.

(** ** Python values reaching the field's methods *)
Inductive value : Type :=
| VNone
| VBool (b : bool)
| VNum (n : Num)
| VStr (s : string)                (* basestring *)
| VTuple (l : list value)
| VList (l : list value)
| VGeom (g : loc)                  (* instance of SpatialBackend.Geometry *)
| VDistance (d : Dist)             (* instance of measure.Distance *)
| VAdaptor (g : loc).              (* SpatialBackend.Adaptor(geom) *)

(** A geometry object: the engine's shape and the mutable [srid]
    attribute ([None] when unset). *)
Record Geom : Type := mkGeom { shape : Shape; srid : option Z }.

Definition set_srid (g : Geom) (s : option Z) : Geom :=
  {| shape := shape g; srid := s |}.

(** The store of geometry objects. *)
Abbreviation heap := (gmap loc Geom).

(** A field instance: its class and the attributes set by [__init__].  The
    SRID is an integer identifier, the key [__init__] hands to
    [get_srid_info]; the unit name and the spheroid come from the spatial
    reference table and may be None. *)
Record Field : Type := mkField {
  __class__ : FieldClass;
  _index : bool;
  _srid : Z;
  _unit : option Num;
  _unit_name : option string;
  _spheroid : option string;
  _dim : Z
}.

(** ** Collaborators *)

(** [django.contrib.gis.db.backend.SpatialBackend], the container of the
    backend-specific parts, including the parent class's
    [get_placeholder]. *)
Class SpatialBackendT : Type := {
  postgis : bool;
  gis_terms : list string;
  distance_functions : list string;
  limited_where : list string;
  (** [SpatialBackend.Geometry(s)]: the geometry built from a string, or
      the exception the constructor raises. *)
  Geometry : string -> result Geom;
  (** [SpatialBackend.Field.get_placeholder(self, geom)] *)
  get_placeholder : Field -> Geom -> string
}.

(** The other imports: [gqn], the [Distance] class and [get_srid_info]. *)
Class Imports : Type := {
  gqn : value -> value;
  (** [dist.m] *)
  Distance_m : Dist -> Num;
  (** [getattr(dist, name)] *)
  Distance_getattr : Dist -> string -> result Num;
  (** [Distance.unit_attname(unit_name)] *)
  Distance_unit_attname : option string -> result string;
  get_srid_info : Z -> result (option Num * option string * option string)
}.

Context {SpatialBackend : SpatialBackendT} {imports : Imports}.

(** ** Computations over the store *)

(** A method that may read and write geometry objects: it ends in a
    result and the store it leaves behind (also when it raises). *)
Definition M (A : Type) : Type := heap -> result A * heap.

Definition ret {A} (a : A) : M A := fun h => (Return a, h).
Definition raise {A} (e : exn) : M A := fun h => (Raise e, h).
Definition lift {A} (r : result A) : M A := fun h => (r, h).
Definition bind {A B} (m : M A) (k : A -> M B) : M B :=
  fun h => match m h with
           | (Return a, h') => k a h'
           | (Raise e, h') => (Raise e, h')
           end.

(** Reading the object behind a reference.  Python has no dangling
    references; a reference outside the store is reported as an error
    of its own and never arises from live values. *)
Definition deref (l : loc) : M Geom :=
  fun h => match h !! l with
           | Some g => (Return g, h)
           | None => (Raise (OtherError "ReferenceError" "no such object"), h)
           end.

(** [geom.srid = s] *)
Definition setattr_srid (l : loc) (s : option Z) : M unit :=
  fun h => match h !! l with
           | Some g => (Return tt, <[l := set_srid g s]> h)
           | None => (Raise (OtherError "ReferenceError" "no such object"), h)
           end.

(** A newly constructed object gets an identity not in use. *)
Definition new_object (g : Geom) : M loc :=
  fun h => let l := fresh (dom h) in (Return l, <[l := g]> h).

(** ** [GeometryField] *)

Definition geodetic_units : list string := ["Decimal Degree"; "degree"].

Definition default_srid : Z := 4326.
Definition default_spatial_index : bool := true.
Definition default_dim : Z := 2.

(** [__init__(self, srid=4326, spatial_index=True, dim=2, **kwargs)] for an
    instance of class [cls]: lines 41-50, the attributes this module sets.
    The call of the parent's initialiser with the remaining keyword
    arguments (line 52) belongs to the backend's [Field] class and is not
    part of this definition. *)
Definition __init__ (cls : FieldClass) (srid : Z) (spatial_index : bool)
    (dim : Z) : result Field :=
  info ← get_srid_info srid;
  let '(u, un, sph) := info in
  mret {| __class__ := cls; _index := spatial_index; _srid := srid;
          _unit := u; _unit_name := un; _spheroid := sph; _dim := dim |}.

(** The [geodetic] property: [self._unit_name in self.geodetic_units]. *)
Definition geodetic (self : Field) : bool :=
  match _unit_name self with
  | Some n => py_in n geodetic_units
  | None => false
  end.

(** [option == 'spheroid'] and the like, on an arbitrary value. *)
Definition py_eq_str (v : value) (s : string) : bool :=
  match v with
  | VStr s' => String.eqb s' s
  | _ => false
  end.

Definition value_of_opt_str (o : option string) : value :=
  match o with
  | Some s => VStr s
  | None => VNone
  end.

(** Lines 70-71: the distance and its option. *)
Definition unpack_dist_val (dist_val : list value) : result (value * value) :=
  match dist_val with
  | [d] => Return (d, VNone)
  | [d; o] => Return (d, o)
  | [] => Raise (ValueError "need more than 0 values to unpack")
  | _ => Raise (ValueError "too many values to unpack")
  end.

(** Line 81: [getattr(dist, Distance.unit_attname(self._unit_name))], the
    distance in the units named by the field. *)
Definition Distance_in_units (d : Dist) (unit_name : option string)
    : result Num :=
  att ← Distance_unit_attname unit_name;
  Distance_getattr d att.

(** [isinstance(geom, SpatialBackend.Geometry)] *)
Definition isinstance_Geometry (v : value) : bool :=
  match v with VGeom _ => true | _ => false end.

(** [isinstance(geom, basestring)] *)
Definition isinstance_basestring (v : value) : bool :=
  match v with VStr _ => true | _ => false end.

(** [isinstance(value, (tuple, list))], with the elements. *)
Definition as_sequence (v : value) : option (list value) :=
  match v with
  | VTuple l | VList l => Some l
  | _ => None
  end.

(** [isinstance(dist, Distance)] *)
Definition isinstance_Distance (v : value) : bool :=
  match v with VDistance _ => true | _ => false end.

(** Lines 73-84: the distance parameter. *)
Definition dist_param_of (self : Field) (dist : value) (lookup_type : string)
    : result value :=
  match dist with
  | VDistance d =>
      if geodetic self then
        if postgis && String.eqb lookup_type "dwithin" then
          Raise (TypeError "Only numeric values of degree units are allowed on geographic DWithin queries.")
        else Return (VNum (Distance_m d))
      else
        VNum <$> Distance_in_units d (_unit_name self)
  | _ => Return dist
  end.

(** Line 86: the test that selects [ST_distance_spheroid]. *)
Definition spheroid_case (self : Field) (lookup_type : string) (option : value)
    : bool :=
  postgis && geodetic self && negb (String.eqb lookup_type "dwithin")
    && py_eq_str option "spheroid".

Definition get_distance (self : Field) (dist_val : list value)
    (lookup_type : string) : result (list value) :=
  p ← unpack_dist_val dist_val;
  let '(dist, option) := p in
  dist_param ← dist_param_of self dist lookup_type;
  if spheroid_case self lookup_type option then
    mret [gqn (value_of_opt_str (_spheroid self)); dist_param]
  else
    mret [dist_param].

(** [get_srid(self, geom)], on the state of the geometry object. *)
Definition get_srid (self : Field) (geom : Geom) : option Z :=
  if bool_decide (srid geom = None)
     || (bool_decide (srid geom = Some (-1)) && negb (Z.eqb (_srid self) (-1)))
  then Some (_srid self)
  else srid geom.

(** Lines 99-102: the geometry part of a lookup value. *)
Definition geom_part (v : value) : result value :=
  match v with
  | VTuple l | VList l =>
      match l with
      | x :: _ => Return x
      | [] => Raise (IndexError "index out of range")
      end
  | _ => Return v
  end.

(** Lines 106-114: a geometry object from the geometry part.  The messages
    of the two exceptions raised here are the format strings of the source,
    before the lookup value is put into them. *)
Definition as_geometry (geom : value) : M loc :=
  match geom with
  | VGeom l => ret l
  | VStr s =>
      match Geometry s with
      | Return g => new_object g
      | Raise (GeometryException _) =>
          raise (ValueError "Could not create geometry from lookup value: %s")
      | Raise e => raise e
      end
  | _ => raise (TypeError "Cannot use parameter of `%s` type as lookup parameter.")
  end.

Definition get_geometry (self : Field) (v : value) : M loc :=
  bind (lift (geom_part v)) (fun geom =>
  bind (as_geometry geom) (fun l =>
  bind (deref l) (fun g =>
  bind (setattr_srid l (get_srid self g)) (fun _ =>
  ret l)))).

(** [value[1:]] *)
Definition rest (l : list value) : list value := tail l.

Definition get_db_prep_lookup (self : Field) (lookup_type : string)
    (v : value) : M (list value * list value) :=
  if py_in lookup_type gis_terms then
    if String.eqb lookup_type "isnull" then ret ([], [])
    else
      bind (get_geometry self v) (fun geom =>
      bind (deref geom) (fun g =>
      let where_ := [VStr (get_placeholder self g)] in
      let params := [VAdaptor geom] in
      match v with
      | VTuple l | VList l =>
          if py_in lookup_type distance_functions then
            bind (lift (get_distance self (rest l) lookup_type)) (fun ds =>
            ret (where_ ++ ds, params))
          else if py_in lookup_type limited_where then
            ret (where_, params)
          else
            ret (where_ ++ map gqn (rest l), params)
      | _ => ret (where_, params)
      end))
  else raise (TypeError "Field has invalid lookup: %s").

Definition get_db_prep_save (self : Field) (v : value) : result value :=
  match v with
  | VGeom l => Return (VAdaptor l)
  | VNone => Return VNone
  | _ => Raise (TypeError "Geometry Proxy should only return Geometry objects or None.")
  end.

(** ** Class bodies and attribute lookup *)

(** What a name in a class body is bound to.  The two ORM hooks
    ([contribute_to_class], [get_manipulator_field_objs]) are bound but
    not embedded. *)
Inductive member : Type :=
| ClassAttr (v : value)
| Init (f : FieldClass -> Z -> bool -> Z -> result Field)
| Property (f : Field -> bool)
| Method_get_distance (f : Field -> list value -> string -> result (list value))
| Method_get_geometry (f : Field -> value -> M loc)
| Method_get_srid (f : Field -> Geom -> option Z)
| Method_get_db_prep_lookup
    (f : Field -> string -> value -> M (list value * list value))
| Method_get_db_prep_save (f : Field -> value -> result value)
| Method_hook.

(** The names bound by the assignments and [def]s of each class body, in
    source order (the docstring and the names Python adds to every class
    are not listed). *)
Definition class_dict (c : FieldClass) : list (string * member) :=
  match c with
  | GeometryField =>
      [("_geom", ClassAttr (VStr "GEOMETRY"));
       ("geodetic_units", ClassAttr (VTuple (map VStr geodetic_units)));
       ("__init__", Init __init__);
       ("geodetic", Property geodetic);
       ("get_distance", Method_get_distance get_distance);
       ("get_geometry", Method_get_geometry get_geometry);
       ("get_srid", Method_get_srid get_srid);
       ("contribute_to_class", Method_hook);
       ("get_db_prep_lookup", Method_get_db_prep_lookup get_db_prep_lookup);
       ("get_db_prep_save", Method_get_db_prep_save get_db_prep_save);
       ("get_manipulator_field_objs", Method_hook)]
  | PointField => [("_geom", ClassAttr (VStr "POINT"))]
  | LineStringField => [("_geom", ClassAttr (VStr "LINESTRING"))]
  | PolygonField => [("_geom", ClassAttr (VStr "POLYGON"))]
  | MultiPointField => [("_geom", ClassAttr (VStr "MULTIPOINT"))]
  | MultiLineStringField => [("_geom", ClassAttr (VStr "MULTILINESTRING"))]
  | MultiPolygonField => [("_geom", ClassAttr (VStr "MULTIPOLYGON"))]
  | GeometryCollectionField => [("_geom", ClassAttr (VStr "GEOMETRYCOLLECTION"))]
  end.

Fixpoint dict_get (name : string) (d : list (string * member)) : option member :=
  match d with
  | [] => None
  | (k, m) :: d' => if String.eqb k name then Some m else dict_get name d'
  end.

Fixpoint getattr_along (name : string) (cs : list FieldClass) : option member :=
  match cs with
  | [] => None
  | c :: cs' =>
      match dict_get name (class_dict c) with
      | Some m => Some m
      | None => getattr_along name cs'
      end
  end.

(** [getattr(cls, name)] for the names bound inside this module. *)
Definition class_getattr (c : FieldClass) (name : string) : option member :=
  getattr_along name (mro c).

Definition no_attr {A} (name : string) : result A :=
  Raise (OtherError "AttributeError" name).

(** [cls.get_distance], [cls.get_geometry], ... as functions of [self]
    and the arguments. *)
Definition cls_get_distance (c : FieldClass)
    : Field -> list value -> string -> result (list value) :=
  match class_getattr c "get_distance" with
  | Some (Method_get_distance f) => f
  | _ => fun _ _ _ => no_attr "get_distance"
  end.

Definition cls_get_geometry (c : FieldClass) : Field -> value -> M loc :=
  match class_getattr c "get_geometry" with
  | Some (Method_get_geometry f) => f
  | _ => fun _ _ => lift (no_attr "get_geometry")
  end.

Definition cls_get_srid (c : FieldClass) : Field -> Geom -> result (option Z) :=
  match class_getattr c "get_srid" with
  | Some (Method_get_srid f) => fun self g => Return (f self g)
  | _ => fun _ _ => no_attr "get_srid"
  end.

Definition cls_get_db_prep_lookup (c : FieldClass)
    : Field -> string -> value -> M (list value * list value) :=
  match class_getattr c "get_db_prep_lookup" with
  | Some (Method_get_db_prep_lookup f) => f
  | _ => fun _ _ _ => lift (no_attr "get_db_prep_lookup")
  end.

Definition cls_get_db_prep_save (c : FieldClass) : Field -> value -> result value :=
  match class_getattr c "get_db_prep_save" with
  | Some (Method_get_db_prep_save f) => f
  | _ => fun _ _ => no_attr "get_db_prep_save"
  end.

(** The class attribute [_geom] seen from class [c]. *)
Definition cls_geom (c : FieldClass) : option value :=
  match class_getattr c "_geom" with
  | Some (ClassAttr v) => Some v
  | _ => None
  end.

End Model.

Arguments value : clear implicits.
Arguments Geom : clear implicits.
Arguments Field : clear implicits.
Arguments SpatialBackendT : clear implicits.
Arguments Imports : clear implicits.

(** ** A sample configuration

    A PostGIS-like backend used to run the model on concrete inputs.
    Numbers are whole numbers, a [Distance] is given by its length in
    metres (so [D(km=1)] is [1000]), and a shape is its text. *)
Module Sample.

Definition D_km (k : Z) : Z := k * 1000.
Definition D_m (m : Z) : Z := m.

Definition UNITS (name : string) : option Z :=
  if String.eqb name "m" then Some 1
  else if String.eqb name "km" then Some 1000
  else None.

Definition unit_attname (unit_name : option string) : result string :=
  match unit_name with
  | Some n =>
      if String.eqb n "metre" || String.eqb n "m" then Return "m"
      else if String.eqb n "kilometre" || String.eqb n "km" then Return "km"
      else Raise (OtherError "Exception" "Could not find a unit keyword")
  | None => Raise (OtherError "AttributeError" "lower")
  end.

Definition getattr_Distance (d : Z) (name : string) : result Z :=
  match UNITS name with
  | Some u => Return (d / u)
  | None => Raise (OtherError "AttributeError" "Unknown unit type")
  end.

Definition quote (v : value Z Z) : value Z Z :=
  match v with
  | VStr s => VStr ("'" ++ s ++ "'")
  | _ => v
  end.

Definition srid_info (srid : Z) : result (option Z * option string * option string) :=
  if Z.eqb srid (-1) then Return (None, None, None)
  else if Z.eqb srid 4326 then
    Return (Some 1, Some "degree", Some "SPHEROID[WGS 84,6378137,298.257223563]")
  else if Z.eqb srid 32140 then
    Return (Some 1, Some "metre", Some "SPHEROID[GRS 1980,6378137,298.257222101]")
  else Raise (ValueError "Failed to find spatial reference entry").

(** The sample constructor, after the GEOS one: it builds a point from
    [POINT(...)], raises its GeometryException on other text that starts
    like a point, and raises ValueError on text it does not recognise as
    geometry input at all. *)
Definition from_text (s : string) : result (Geom string) :=
  if String.prefix "POINT(" s then Return {| shape := s; srid := None |}
  else if String.prefix "POINT" s then
    Raise (GeometryException "Error encountered checking Geometry")
  else Raise (ValueError "String or unicode input unrecognized as WKT EWKT, and HEXEWKB.").

Definition placeholder (self : Field Z) (g : Geom string) : string :=
  if bool_decide (srid g = Some (_srid self)) then "%s"
  else "ST_Transform(%s, srid)".

#[global] Instance backend : SpatialBackendT Z string := {|
  postgis := true;
  gis_terms := ["contains"; "distance_lte"; "dwithin"; "intersects"; "isnull"; "relate"];
  distance_functions := ["distance_lte"; "dwithin"];
  limited_where := ["relate"];
  Geometry := from_text;
  get_placeholder := placeholder
|}.

#[global] Instance imports : Imports Z Z := {|
  gqn := quote;
  Distance_m := fun d => d;
  Distance_getattr := getattr_Distance;
  Distance_unit_attname := unit_attname;
  get_srid_info := srid_info
|}.

(** [PointField()] (WGS84, degrees) and [PointField(srid=32140)] (metres). *)
Definition wgs84_field : Field Z :=
  {| __class__ := PointField; _index := true; _srid := 4326;
     _unit := Some 1; _unit_name := Some "degree";
     _spheroid := Some "SPHEROID[WGS 84,6378137,298.257223563]"; _dim := 2 |}.

Definition metre_field : Field Z :=
  {| __class__ := PointField; _index := true; _srid := 32140;
     _unit := Some 1; _unit_name := Some "metre";
     _spheroid := Some "SPHEROID[GRS 1980,6378137,298.257222101]"; _dim := 2 |}.

(** A store with one geometry object that has no SRID yet. *)
Definition pnt : loc := 1%positive.
Definition store : gmap loc (Geom string) :=
  {[ pnt := {| shape := "POINT(5 23)"; srid := None |} ]}.

End Sample.

(** ** Properties *)

Section Properties.
Context {Num Dist Shape : Type}.
Context {SpatialBackend : SpatialBackendT Num Shape} {imports : Imports Num Dist}.

Implicit Types (self : Field Num) (geom : Geom Shape) (h : gmap loc (Geom Shape)).
Implicit Types (v dist option : value Num Dist) (lookup_type : string).

(** *** Membership and comparisons *)

Lemma py_in_In (s : string) (l : list string) : py_in s l = true <-> In s l.
Proof.
  unfold py_in. rewrite existsb_exists. split.
  - intros (x & Hx & Heq). apply String.eqb_eq in Heq. now subst.
  - intros Hin. exists s. split; [assumption | apply String.eqb_refl].
Qed.

Lemma py_in_not_In (s : string) (l : list string) : py_in s l = false <-> ~ In s l.
Proof.
  rewrite <- py_in_In. destruct (py_in s l); split; intros; congruence.
Qed.

Lemma py_eq_str_spec v (s : string) : py_eq_str v s = true <-> v = VStr s.
Proof.
  destruct v; simpl; try (split; intros; discriminate).
  rewrite String.eqb_eq. split; intros; congruence.
Qed.

Lemma geodetic_spec self :
  geodetic self = true <->
  (_unit_name self = Some "Decimal Degree" \/ _unit_name self = Some "degree").
Proof.
  unfold geodetic. destruct (_unit_name self) as [n|].
  - rewrite py_in_In. simpl. split.
    + intros [H | [H | []]]; subst; auto.
    + intros [H | H]; inversion H; auto.
  - split; [discriminate | intros [H | H]; discriminate].
Qed.

(** *** [get_distance] *)

Lemma spheroid_case_spec self lookup_type option :
  spheroid_case self lookup_type option = true <->
  (postgis = true /\ geodetic self = true /\ lookup_type <> "dwithin"
   /\ option = VStr "spheroid").
Proof.
  unfold spheroid_case. rewrite !andb_true_iff, negb_true_iff, py_eq_str_spec.
  rewrite String.eqb_neq. tauto.
Qed.

Lemma spheroid_case_planar self lookup_type option :
  geodetic self = false -> spheroid_case self lookup_type option = false.
Proof.
  intros Hg. unfold spheroid_case. rewrite Hg.
  now rewrite andb_false_r.
Qed.

Lemma dist_param_of_plain self dist lookup_type :
  isinstance_Distance dist = false ->
  dist_param_of self dist lookup_type = Return dist.
Proof. destruct dist; simpl; intros H; try reflexivity; discriminate. Qed.

(** The body of [get_distance] once the distance and its option are
    unpacked. *)
Lemma get_distance_unpacked self dist_val dist option lookup_type :
  unpack_dist_val dist_val = Return (dist, option) ->
  get_distance self dist_val lookup_type =
  match dist_param_of self dist lookup_type with
  | Return p =>
      Return (if spheroid_case self lookup_type option
              then [gqn (value_of_opt_str (_spheroid self)); p]
              else [p])
  | Raise e => Raise e
  end.
Proof.
  intros Hu. unfold get_distance. rewrite Hu. simpl.
  destruct (dist_param_of self dist lookup_type); simpl; [|reflexivity].
  now destruct (spheroid_case self lookup_type option).
Qed.

(** C1, as amended: on a field that is not geodetic, a [Distance] passed as
    the distance parameter (alone or with an option) comes back as the
    one-element list holding [getattr(d, Distance.unit_attname(unit name))],
    the distance in the units named by the field, whenever the [Distance]
    class has a unit for the field's unit name; when [unit_attname] or the
    attribute lookup raises, [get_distance] raises that exception; a
    parameter that is not a [Distance] comes back unchanged, as a
    one-element list. *)
Theorem C1_get_distance_planar self lookup_type :
  geodetic self = false ->
  (forall (d : Dist) option dist_val,
      dist_val = [VDistance d] \/ dist_val = [VDistance d; option] ->
      match Distance_unit_attname (_unit_name self) with
      | Return att =>
          match Distance_getattr d att with
          | Return x => get_distance self dist_val lookup_type = Return [VNum x]
          | Raise e => get_distance self dist_val lookup_type = Raise e
          end
      | Raise e => get_distance self dist_val lookup_type = Raise e
      end)
  /\ (forall dist option,
        isinstance_Distance dist = false ->
        get_distance self [dist] lookup_type = Return [dist]
        /\ get_distance self [dist; option] lookup_type = Return [dist]).
Proof.
  intros Hplanar. split.
  - intros d option dist_val Hshape.
    assert (Hu : exists o, unpack_dist_val dist_val = Return (VDistance d, o)).
    { destruct Hshape as [-> | ->]; eexists; reflexivity. }
    destruct Hu as [o Hu].
    rewrite (get_distance_unpacked self dist_val (VDistance d) o lookup_type Hu).
    rewrite spheroid_case_planar by assumption.
    simpl. rewrite Hplanar. unfold Distance_in_units.
    destruct (Distance_unit_attname (_unit_name self)) as [att|e]; simpl;
      [|reflexivity].
    destruct (Distance_getattr d att) as [x|e]; reflexivity.
  - intros dist option Hnot.
    rewrite (get_distance_unpacked self [dist] dist VNone) by reflexivity.
    rewrite (get_distance_unpacked self [dist; option] dist option) by reflexivity.
    rewrite dist_param_of_plain by assumption.
    rewrite !spheroid_case_planar by assumption. auto.
Qed.

(** C2: a field is geodetic exactly when its unit name is 'Decimal Degree'
    or 'degree'; on such a field a [Distance] is turned into its length in
    metres, except on PostGIS with the 'dwithin' lookup, where
    [get_distance] raises TypeError. *)
Theorem C2_get_distance_geodetic self lookup_type (d : Dist) option :
  (geodetic self = true <->
   (_unit_name self = Some "Decimal Degree" \/ _unit_name self = Some "degree"))
  /\ (geodetic self = true ->
      if postgis && String.eqb lookup_type "dwithin" then
        is_TypeError (get_distance self [VDistance d] lookup_type) = true
        /\ is_TypeError (get_distance self [VDistance d; option] lookup_type) = true
      else
        get_distance self [VDistance d] lookup_type = Return [VNum (Distance_m d)]
        /\ get_distance self [VDistance d; option] lookup_type =
           Return (if postgis && py_eq_str option "spheroid"
                   then [gqn (value_of_opt_str (_spheroid self)); VNum (Distance_m d)]
                   else [VNum (Distance_m d)])).
Proof.
  split; [apply geodetic_spec|].
  intros Hg.
  rewrite (get_distance_unpacked self [VDistance d] (VDistance d) VNone)
    by reflexivity.
  rewrite (get_distance_unpacked self [VDistance d; option] (VDistance d) option)
    by reflexivity.
  unfold spheroid_case. simpl. rewrite Hg.
  destruct postgis; simpl; [|auto].
  destruct (String.eqb lookup_type "dwithin"); simpl; auto.
Qed.

(** C3, as amended: whenever [get_distance] returns, the list is
    [quoted spheroid; distance value] exactly when the backend is PostGIS,
    the field is geodetic, the lookup type is not 'dwithin' and the option
    is 'spheroid', and [distance value] otherwise; it returns whenever the
    distance parameter can be computed, and raises TypeError instead for a
    [Distance] on a geodetic field with PostGIS and 'dwithin'. *)
Theorem C3_get_distance_shape self dist_val lookup_type :
  (forall r, get_distance self dist_val lookup_type = Return r ->
     exists dist option p,
       unpack_dist_val dist_val = Return (dist, option)
       /\ dist_param_of self dist lookup_type = Return p
       /\ (((postgis = true /\ geodetic self = true /\ lookup_type <> "dwithin"
             /\ option = VStr "spheroid")
            /\ r = [gqn (value_of_opt_str (_spheroid self)); p])
           \/ (~ (postgis = true /\ geodetic self = true
                  /\ lookup_type <> "dwithin" /\ option = VStr "spheroid")
               /\ r = [p])))
  /\ (forall dist option p,
        unpack_dist_val dist_val = Return (dist, option) ->
        dist_param_of self dist lookup_type = Return p ->
        is_Return (get_distance self dist_val lookup_type) = true)
  /\ (forall (d : Dist) option,
        unpack_dist_val dist_val = Return (VDistance d, option) ->
        postgis = true -> geodetic self = true -> lookup_type = "dwithin" ->
        is_TypeError (get_distance self dist_val lookup_type) = true).
Proof.
  split; [|split].
  - intros r Hr.
    destruct (unpack_dist_val dist_val) as [[dist option]|e] eqn:Hu.
    + rewrite (get_distance_unpacked _ _ _ _ _ Hu) in Hr.
      destruct (dist_param_of self dist lookup_type) as [p|e] eqn:Hp;
        [|discriminate].
      exists dist, option, p. split; [reflexivity|]. split; [exact Hp|].
      destruct (spheroid_case self lookup_type option) eqn:Hs.
      * left. apply spheroid_case_spec in Hs. split; [exact Hs | congruence].
      * right. split; [|congruence].
        intros Hc. apply spheroid_case_spec in Hc. congruence.
    + unfold get_distance in Hr. rewrite Hu in Hr. discriminate.
  - intros dist option p Hu Hp.
    rewrite (get_distance_unpacked _ _ _ _ _ Hu), Hp. reflexivity.
  - intros d option Hu Hpg Hg Hlt.
    rewrite (get_distance_unpacked _ _ _ _ _ Hu). simpl.
    rewrite Hg, Hpg, Hlt. reflexivity.
Qed.

(** *** [get_srid] *)

(** C4: [get_srid] returns the field's SRID when the geometry's SRID is
    None, or is -1 while the field's is not -1, and the geometry's own SRID
    in every other case; when the two SRIDs differ, the field's SRID comes
    back exactly in the first case. *)
Theorem C4_get_srid self geom :
  let use_field :=
    srid geom = None \/ (srid geom = Some (-1)%Z /\ _srid self <> (-1)%Z) in
  (use_field -> get_srid self geom = Some (_srid self))
  /\ (~ use_field -> get_srid self geom = srid geom)
  /\ (srid geom <> Some (_srid self) ->
      (get_srid self geom = Some (_srid self) <-> use_field)).
Proof.
  intros use_field. subst use_field. unfold get_srid.
  destruct (srid geom) as [s|] eqn:Hs;
    repeat case_bool_decide;
    destruct (Z.eqb_spec (_srid self) (-1));
    simpl; intuition congruence.
Qed.

(** The SRID chosen by [get_srid] is never None. *)
Lemma get_srid_not_None self geom : get_srid self geom <> None.
Proof.
  unfold get_srid. destruct (srid geom) as [s|] eqn:Hs;
    repeat case_bool_decide;
    destruct (Z.eqb_spec (_srid self) (-1));
    simpl; congruence.
Qed.

(** *** [get_geometry] *)

Lemma get_geometry_no_part self v h (e : exn) :
  geom_part v = Raise e -> get_geometry self v h = (Raise e, h).
Proof.
  intros Hp. unfold get_geometry, bind, lift. now rewrite Hp.
Qed.

(** A geometry object passed in is updated in place. *)
Lemma get_geometry_object self v h (l : loc) (g : Geom Shape) :
  geom_part v = Return (VGeom l) -> h !! l = Some g ->
  get_geometry self v h = (Return l, <[l := set_srid g (get_srid self g)]> h).
Proof.
  intros Hp Hl.
  unfold get_geometry, bind, lift, as_geometry, ret, deref, setattr_srid.
  rewrite Hp. simpl. repeat (rewrite Hl; simpl). reflexivity.
Qed.

Lemma get_geometry_dangling self v h (l : loc) :
  geom_part v = Return (VGeom l) -> h !! l = None ->
  get_geometry self v h = (Raise (OtherError "ReferenceError" "no such object"), h).
Proof.
  intros Hp Hl.
  unfold get_geometry, bind, lift, as_geometry, ret, deref, setattr_srid.
  rewrite Hp. simpl. repeat (rewrite Hl; simpl). reflexivity.
Qed.

(** A string is handed to the backend's constructor. *)
Lemma get_geometry_string self v h (s : string) :
  geom_part v = Return (VStr s) ->
  get_geometry self v h =
  match Geometry s with
  | Return g =>
      (Return (fresh (dom h)),
       <[fresh (dom h) := set_srid g (get_srid self g)]> h)
  | Raise e =>
      (Raise (if exn_is_GeometryException e
              then ValueError "Could not create geometry from lookup value: %s"
              else e), h)
  end.
Proof.
  intros Hp.
  unfold get_geometry, bind, lift, as_geometry.
  rewrite Hp. simpl.
  destruct (Geometry s) as [g|e].
  - unfold new_object, deref, setattr_srid, ret.
    cbv beta zeta. rewrite lookup_insert_eq. cbv beta iota.
    rewrite lookup_insert_eq. rewrite insert_insert_eq. reflexivity.
  - destruct e; reflexivity.
Qed.

Lemma get_geometry_other self v h x :
  geom_part v = Return x ->
  isinstance_Geometry x = false -> isinstance_basestring x = false ->
  get_geometry self v h =
  (Raise (TypeError "Cannot use parameter of `%s` type as lookup parameter."), h).
Proof.
  intros Hp Hg Hs.
  unfold get_geometry, bind, lift, as_geometry. rewrite Hp.
  destruct x; simpl in *; try discriminate; reflexivity.
Qed.

(** What a successful [get_geometry] has done. *)
Lemma get_geometry_returns self v h (l : loc) h' :
  get_geometry self v h = (Return l, h') ->
  exists g0 : Geom Shape,
    h' = <[l := set_srid g0 (get_srid self g0)]> h
    /\ ((geom_part v = Return (VGeom l) /\ h !! l = Some g0)
        \/ (exists s, geom_part v = Return (VStr s)
                      /\ Geometry s = Return g0 /\ l = fresh (dom h))).
Proof.
  intros Hget.
  destruct (geom_part v) as [x|e] eqn:Hp.
  - destruct x;
      try (rewrite (get_geometry_other self v h _ Hp eq_refl eq_refl) in Hget;
           discriminate).
    + rewrite (get_geometry_string self v h s Hp) in Hget.
      destruct (Geometry s) as [g|e] eqn:Hc; [|discriminate].
      inversion Hget; subst. exists g. split; [reflexivity|].
      right. exists s. auto.
    + destruct (h !! g) as [g0|] eqn:Hl.
      * rewrite (get_geometry_object self v h g g0 Hp Hl) in Hget.
        inversion Hget; subst. exists g0. split; [reflexivity|]. left. auto.
      * rewrite (get_geometry_dangling self v h g Hp Hl) in Hget. discriminate.
  - rewrite (get_geometry_no_part self v h e Hp) in Hget. discriminate.
Qed.

Lemma get_geometry_live self v h (l : loc) h' :
  get_geometry self v h = (Return l, h') ->
  exists g' : Geom Shape, h' !! l = Some g' /\ srid g' <> None.
Proof.
  intros Hget. apply get_geometry_returns in Hget as (g0 & -> & _).
  exists (set_srid g0 (get_srid self g0)). split.
  - apply lookup_insert_eq.
  - simpl. apply get_srid_not_None.
Qed.

(** C5, as amended: the geometry part of the lookup value is the value's
    first element when it is a tuple or list and the value itself otherwise.
    When that part is a string, the geometry is exactly what the backend's
    constructor builds from it (with the SRID then assigned), ValueError is
    raised in place of the constructor's GeometryException, and any other
    exception of the constructor is passed on unchanged, so that ValueError
    is raised exactly when the constructor raises GeometryException or
    ValueError; a part that is neither a backend Geometry nor a string
    raises TypeError. *)
Theorem C5_get_geometry_delegates self v h :
  (forall s : string,
      geom_part v = Return (VStr s) ->
      match Geometry s with
      | Return g =>
          get_geometry self v h =
          (Return (fresh (dom h)),
           <[fresh (dom h) := set_srid g (get_srid self g)]> h)
      | Raise e =>
          if exn_is_GeometryException e
          then get_geometry self v h =
               (Raise (ValueError "Could not create geometry from lookup value: %s"), h)
          else get_geometry self v h = (Raise e, h)
      end)
  /\ (forall s : string,
        geom_part v = Return (VStr s) ->
        (is_ValueError (fst (get_geometry self v h)) = true <->
         (is_GeometryException (Geometry s) = true
          \/ is_ValueError (Geometry s) = true)))
  /\ (forall x,
        geom_part v = Return x ->
        isinstance_Geometry x = false -> isinstance_basestring x = false ->
        is_TypeError (fst (get_geometry self v h)) = true
        /\ snd (get_geometry self v h) = h)
  /\ (forall s : string,
        geom_part (VStr s : value Num Dist) = Return (VStr s))
  /\ (forall x (xs : list (value Num Dist)),
        geom_part (VTuple (x :: xs)) = Return x
        /\ geom_part (VList (x :: xs)) = Return x).
Proof.
  split; [|split; [|split; [|split]]].
  - intros s Hp. rewrite (get_geometry_string self v h s Hp).
    destruct (Geometry s) as [g|e]; [reflexivity|].
    destruct (exn_is_GeometryException e); reflexivity.
  - intros s Hp. rewrite (get_geometry_string self v h s Hp).
    destruct (Geometry s) as [g|e]; simpl.
    + split; [discriminate | intros [H|H]; discriminate].
    + destruct e; simpl; split; auto; intros [H|H]; discriminate.
  - intros x Hp Hg Hs.
    rewrite (get_geometry_other self v h x Hp Hg Hs). auto.
  - reflexivity.
  - intros; split; reflexivity.
Qed.

(** C8: a geometry returned by [get_geometry] has an SRID that is not None,
    namely the result of [get_srid] on the geometry as it was, which is the
    object passed in as the store held it, or else what the constructor
    built from the string (its shape is untouched); a backend Geometry
    passed in is the very object returned and is updated in place, every
    other object staying as it was; and every parameter produced by
    [get_db_prep_lookup] is an Adaptor around such a geometry. *)
Theorem C8_srid_assigned self :
  (forall v h (l : loc) h',
      get_geometry self v h = (Return l, h') ->
      exists g0 g' : Geom Shape,
        ((geom_part v = Return (VGeom l) /\ h !! l = Some g0)
         \/ (exists s : string,
               geom_part v = Return (VStr s)
               /\ Geometry s = Return g0 /\ h !! l = None))
        /\ h' !! l = Some g'
        /\ g' = set_srid g0 (get_srid self g0)
        /\ srid g' <> None
        /\ srid g' = get_srid self g0 /\ shape g' = shape g0
        /\ (forall l', l' <> l -> h' !! l' = h !! l'))
  /\ (forall v h (l : loc) (g : Geom Shape),
        geom_part v = Return (VGeom l) -> h !! l = Some g ->
        get_geometry self v h =
        (Return l, <[l := set_srid g (get_srid self g)]> h))
  /\ (forall lookup_type v h (where_ params : list (value Num Dist)) h',
        get_db_prep_lookup self lookup_type v h = (Return (where_, params), h') ->
        Forall (fun p => exists (l : loc) (g' : Geom Shape),
                   p = VAdaptor l /\ h' !! l = Some g' /\ srid g' <> None)
               params).
Proof.
  split; [|split].
  - intros v h l h' Hget.
    apply get_geometry_returns in Hget as (g0 & -> & Hfrom).
    exists g0, (set_srid g0 (get_srid self g0)).
    split.
    { destruct Hfrom as [Hobj | (s & Hp & Hc & ->)]; [left; exact Hobj|].
      right. exists s. split; [exact Hp|]. split; [exact Hc|].
      apply not_elem_of_dom. apply is_fresh. }
    rewrite lookup_insert_eq. repeat split.
    + simpl. apply get_srid_not_None.
    + intros l' Hne. now rewrite lookup_insert_ne.
  - intros v h l g. apply get_geometry_object.
  - intros lookup_type v h where_ params h' Hl.
    unfold get_db_prep_lookup in Hl.
    destruct (py_in lookup_type gis_terms); [|discriminate].
    destruct (String.eqb lookup_type "isnull").
    { inversion Hl; subst. constructor. }
    unfold bind at 1 in Hl.
    destruct (get_geometry self v h) as [[l|e] h1] eqn:Hget; [|discriminate].
    destruct (get_geometry_live _ _ _ _ _ Hget) as (g' & Hg' & Hsrid).
    unfold bind at 1, deref in Hl. rewrite Hg' in Hl.
    assert (Hdone : h' = h1 /\ params = [VAdaptor l]).
    { destruct v; simpl in Hl; try (inversion Hl; subst; auto; fail);
        (destruct (py_in lookup_type distance_functions);
         [ unfold bind, lift, ret in Hl;
           destruct (get_distance self (rest l0) lookup_type);
           inversion Hl; subst; auto
         | destruct (py_in lookup_type limited_where);
           inversion Hl; subst; auto ]). }
    destruct Hdone as [-> ->].
    constructor; [|constructor]. exists l, g'. auto.
Qed.

(** *** [get_db_prep_lookup] and [get_db_prep_save] *)

(** The body of [get_db_prep_lookup] after the geometry is found. *)
Lemma get_db_prep_lookup_found self lookup_type v h (l : loc) h'
    (g : Geom Shape) :
  py_in lookup_type gis_terms = true ->
  String.eqb lookup_type "isnull" = false ->
  get_geometry self v h = (Return l, h') ->
  h' !! l = Some g ->
  get_db_prep_lookup self lookup_type v h =
  let placeholder := VStr (get_placeholder self g) in
  let params := [VAdaptor l] in
  match as_sequence v with
  | Some xs =>
      if py_in lookup_type distance_functions then
        ((fun ds => (placeholder :: ds, params))
           <$> get_distance self (rest xs) lookup_type, h')
      else if py_in lookup_type limited_where then
        (Return ([placeholder], params), h')
      else
        (Return (placeholder :: map gqn (rest xs), params), h')
  | None => (Return ([placeholder], params), h')
  end.
Proof.
  intros Hin Hnull Hget Hl.
  unfold get_db_prep_lookup. rewrite Hin, Hnull.
  unfold bind at 1. rewrite Hget.
  unfold bind at 1, deref. rewrite Hl.
  destruct v; simpl; try reflexivity;
    (destruct (py_in lookup_type distance_functions);
     [ unfold bind, lift, ret;
       destruct (get_distance self (rest l0) lookup_type); reflexivity
     | destruct (py_in lookup_type limited_where); reflexivity ]).
Qed.

(** C6: for a lookup type of [gis_terms] other than 'isnull',
    [get_db_prep_lookup] fails as [get_geometry] fails, and otherwise its
    params are the one-element list with the Adaptor around the geometry
    found, and its where-list starts with the field's placeholder for that
    geometry; on a tuple or list value the where-list goes on with the
    result of [get_distance] on the remaining elements for a distance
    function, with nothing for another lookup of [limited_where], and with
    the remaining elements quoted by [gqn] otherwise. *)
Theorem C6_get_db_prep_lookup self lookup_type v h :
  In lookup_type gis_terms -> lookup_type <> "isnull" ->
  match get_geometry self v h with
  | (Raise e, h') => get_db_prep_lookup self lookup_type v h = (Raise e, h')
  | (Return l, h') =>
      exists g : Geom Shape,
        h' !! l = Some g
        /\ let placeholder := VStr (get_placeholder self g) in
           let params := [VAdaptor l] in
           match as_sequence v with
           | Some xs =>
               if py_in lookup_type distance_functions then
                 get_db_prep_lookup self lookup_type v h =
                 ((fun ds => (placeholder :: ds, params))
                    <$> get_distance self (rest xs) lookup_type, h')
               else if py_in lookup_type limited_where then
                 get_db_prep_lookup self lookup_type v h =
                 (Return ([placeholder], params), h')
               else
                 get_db_prep_lookup self lookup_type v h =
                 (Return (placeholder :: map gqn (rest xs), params), h')
           | None =>
               get_db_prep_lookup self lookup_type v h =
               (Return ([placeholder], params), h')
           end
  end.
Proof.
  intros Hin Hnull.
  apply py_in_In in Hin. apply String.eqb_neq in Hnull.
  destruct (get_geometry self v h) as [[l|e] h'] eqn:Hget.
  - destruct (get_geometry_live _ _ _ _ _ Hget) as (g & Hg & _).
    exists g. split; [exact Hg|].
    rewrite (get_db_prep_lookup_found _ _ _ _ _ _ _ Hin Hnull Hget Hg).
    cbv zeta. destruct (as_sequence v); [|reflexivity].
    destruct (py_in lookup_type distance_functions); [reflexivity|].
    destruct (py_in lookup_type limited_where); reflexivity.
  - unfold get_db_prep_lookup. rewrite Hin, Hnull.
    unfold bind. now rewrite Hget.
Qed.

(** C9: [get_db_prep_save] returns the Adaptor around the value exactly when
    the value is a backend Geometry, None exactly when it is None, and
    raises TypeError for every other value, a string among them. *)
Theorem C9_get_db_prep_save self v :
  ((exists l : loc, v = VGeom l) <->
   (exists a : loc, get_db_prep_save self v = Return (VAdaptor a)))
  /\ (forall l : loc,
        get_db_prep_save self (VGeom l : value Num Dist) = Return (VAdaptor l))
  /\ (v = VNone <-> get_db_prep_save self v = Return VNone)
  /\ (isinstance_Geometry v = false /\ v <> VNone <->
      is_TypeError (get_db_prep_save self v) = true)
  /\ (forall s : string,
        is_TypeError (get_db_prep_save self (VStr s : value Num Dist)) = true).
Proof.
  repeat split; intros; simpl; auto;
    destruct v; simpl in *;
    repeat match goal with
           | H : exists _, _ |- _ => destruct H
           | H : _ /\ _ |- _ => destruct H
           end;
    try discriminate; try congruence; eauto.
Qed.

(** C10: a lookup type outside [gis_terms] raises TypeError, and the
    'isnull' lookup (a term of the backend) returns the pair of empty lists
    whatever the value and the store, which it leaves as it was. *)
Theorem C10_invalid_and_isnull self :
  (forall lookup_type v h,
      ~ In lookup_type gis_terms ->
      get_db_prep_lookup self lookup_type v h =
      (Raise (TypeError "Field has invalid lookup: %s"), h))
  /\ (In "isnull" gis_terms ->
      forall v h,
        get_db_prep_lookup self "isnull" v h = (Return ([], []), h)).
Proof.
  split.
  - intros lookup_type v h Hnot. apply py_in_not_In in Hnot.
    unfold get_db_prep_lookup. now rewrite Hnot.
  - intros Hin v h. apply py_in_In in Hin.
    unfold get_db_prep_lookup. now rewrite Hin.
Qed.

(** *** The subclasses *)

(** C7: the classes derived from [GeometryField] are exactly the seven
    geometry kinds; the body of each binds [_geom] and nothing else, to its
    own OpenGIS name; and [get_distance], [get_geometry], [get_srid],
    [get_db_prep_lookup] and [get_db_prep_save] looked up on each of them
    are the functions of [GeometryField]. *)
Theorem C7_subclasses_inherit :
  subclasses GeometryField =
    [PointField; LineStringField; PolygonField; MultiPointField;
     MultiLineStringField; MultiPolygonField; GeometryCollectionField]
  /\ Forall (fun c => map fst (class_dict c) = ["_geom"])
            (subclasses GeometryField)
  /\ map cls_geom (subclasses GeometryField) =
       map (fun n => Some (VStr n))
           ["POINT"; "LINESTRING"; "POLYGON"; "MULTIPOINT"; "MULTILINESTRING";
            "MULTIPOLYGON"; "GEOMETRYCOLLECTION"]
  /\ cls_geom GeometryField = Some (VStr "GEOMETRY")
  /\ Forall (fun c =>
       (forall self dist_val lookup_type,
           cls_get_distance c self dist_val lookup_type =
           cls_get_distance GeometryField self dist_val lookup_type)
       /\ (forall self v h,
             cls_get_geometry c self v h =
             cls_get_geometry GeometryField self v h)
       /\ (forall self geom,
             cls_get_srid c self geom = cls_get_srid GeometryField self geom)
       /\ (forall self lookup_type v h,
             cls_get_db_prep_lookup c self lookup_type v h =
             cls_get_db_prep_lookup GeometryField self lookup_type v h)
       /\ (forall self v,
             cls_get_db_prep_save c self v =
             cls_get_db_prep_save GeometryField self v))
     (subclasses GeometryField)
  /\ (forall self dist_val lookup_type,
        cls_get_distance GeometryField self dist_val lookup_type =
        get_distance self dist_val lookup_type)
  /\ (forall self v h,
        cls_get_geometry GeometryField self v h = get_geometry self v h)
  /\ (forall self geom,
        cls_get_srid GeometryField self geom = Return (get_srid self geom))
  /\ (forall self lookup_type v h,
        cls_get_db_prep_lookup GeometryField self lookup_type v h =
        get_db_prep_lookup self lookup_type v h)
  /\ (forall self v,
        cls_get_db_prep_save GeometryField self v = get_db_prep_save self v).
Proof.
  assert (Hsub : subclasses GeometryField =
    [PointField; LineStringField; PolygonField; MultiPointField;
     MultiLineStringField; MultiPolygonField; GeometryCollectionField])
    by reflexivity.
  rewrite Hsub.
  split; [reflexivity|].
  split.
  { repeat (constructor; [reflexivity|]). constructor. }
  split; [reflexivity|].
  split; [reflexivity|].
  split.
  { repeat (constructor; [repeat split; intros; reflexivity|]). constructor. }
  repeat split; intros; reflexivity.
Qed.

End Properties.

(** ** The properties on the sample configuration *)

Section Runs.
Import Sample.

Local Abbreviation V := (value Z Z).

Local Abbreviation unitless_field :=
  ({| __class__ := PointField; _index := true; _srid := (-1)%Z;
      _unit := None; _unit_name := None; _spheroid := None; _dim := 2%Z |}
     : Field Z).

(** [PointField()] and [PointField(srid=32140)] against the sample
    spatial reference table. *)
Example init_wgs84 :
  __init__ PointField default_srid default_spatial_index default_dim
  = Return wgs84_field.
Proof. reflexivity. Qed.

Example init_metre : __init__ PointField 32140 true 2 = Return metre_field.
Proof. reflexivity. Qed.

(** [D(km=1)] on a field in metres gives 1000; a plain number is passed on. *)
Lemma C1_get_distance_planar_run :
  geodetic metre_field = false
  /\ get_distance metre_field [VDistance (D_km 1)] "distance_lte"
     = Return [VNum 1000%Z]
  /\ get_distance metre_field [VDistance (D_km 1); VStr "spheroid"] "distance_lte"
     = Return [VNum 1000%Z]
  /\ get_distance metre_field [VNum 5%Z] "distance_lte" = Return [VNum 5%Z].
Proof.
  assert (Hg : geodetic metre_field = false) by reflexivity.
  destruct (C1_get_distance_planar metre_field "distance_lte" Hg) as [Hd Hp].
  split; [exact Hg|].
  destruct (Hp (VNum 5%Z) VNone eq_refl) as [H3 _].
  split; [exact (Hd (D_km 1) (VStr "spheroid") _ (or_introl eq_refl))|].
  split; [exact (Hd (D_km 1) (VStr "spheroid") _ (or_intror eq_refl))|exact H3].
Defined.

(** C1, as stated, fails: a field of SRID -1 has no unit name and is not
    geodetic, the [Distance] class has no unit for it, and [get_distance]
    raises instead of returning a one-element list. *)
Lemma C1_counterexample :
  __init__ PointField (-1) true 2 = Return unitless_field
  /\ geodetic unitless_field = false
  /\ get_distance unitless_field [VDistance (D_km 1)] "distance_lte"
     = Raise (OtherError "AttributeError" "lower")
  /\ is_Return (get_distance unitless_field [VDistance (D_km 1)] "distance_lte")
     = false.
Proof. repeat split; reflexivity. Qed.

(** On the WGS84 field [D(km=1)] is 1000 metres for 'distance_lte' and a
    TypeError for 'dwithin'. *)
Lemma C2_get_distance_geodetic_run :
  geodetic wgs84_field = true
  /\ get_distance wgs84_field [VDistance (D_km 1)] "distance_lte"
     = Return [VNum 1000%Z]
  /\ is_TypeError (get_distance wgs84_field [VDistance (D_km 1)] "dwithin") = true.
Proof.
  assert (Hg : geodetic wgs84_field = true) by reflexivity.
  split; [exact Hg|]. split.
  - exact (proj1 (proj2 (C2_get_distance_geodetic wgs84_field "distance_lte"
                           (D_km 1) VNone) Hg)).
  - exact (proj1 (proj2 (C2_get_distance_geodetic wgs84_field "dwithin"
                           (D_km 1) VNone) Hg)).
Defined.

(** C3, as stated, fails: on PostGIS, for a geodetic field and 'dwithin', the
    spheroid case does not apply, yet a [Distance] gives no one-element
    list: TypeError is raised. *)
Lemma C3_counterexample :
  spheroid_case wgs84_field "dwithin" (VNone : V) = false
  /\ get_distance wgs84_field [VDistance (D_km 1)] "dwithin"
     = Raise (TypeError "Only numeric values of degree units are allowed on geographic DWithin queries.")
  /\ (forall p : V,
        get_distance wgs84_field [VDistance (D_km 1)] "dwithin" <> Return [p]).
Proof.
  split; [reflexivity|]. split; [reflexivity|].
  intros p. discriminate.
Qed.

(** With the option 'spheroid' the quoted spheroid comes first. *)
Lemma C3_get_distance_shape_run :
  get_distance wgs84_field [VNum 5%Z; VStr "spheroid"] "distance_lte"
  = Return [VStr "'SPHEROID[WGS 84,6378137,298.257223563]'"; VNum 5%Z]
  /\ is_Return (get_distance wgs84_field [VNum 5%Z; VStr "x"] "distance_lte") = true
  /\ is_TypeError (get_distance wgs84_field [VDistance (D_km 1)] "dwithin") = true.
Proof.
  split; [reflexivity|]. split.
  - exact (proj1 (proj2 (C3_get_distance_shape wgs84_field
                           [VNum 5%Z; VStr "x"] "distance_lte"))
                 (VNum 5%Z) (VStr "x") (VNum 5%Z) eq_refl eq_refl).
  - exact (proj2 (proj2 (C3_get_distance_shape wgs84_field
                           [VDistance (D_km 1)] "dwithin"))
                 (D_km 1) VNone eq_refl eq_refl eq_refl eq_refl).
Defined.

(** A geometry without SRID, or with -1, takes the field's; one with its
    own SRID keeps it. *)
Lemma C4_get_srid_run :
  get_srid wgs84_field {| shape := "POINT(5 23)"; srid := None |} = Some 4326%Z
  /\ get_srid wgs84_field {| shape := "POINT(5 23)"; srid := Some (-1)%Z |}
     = Some 4326%Z
  /\ get_srid wgs84_field {| shape := "POINT(5 23)"; srid := Some 32140%Z |}
     = Some 32140%Z.
Proof.
  split; [|split].
  - apply (proj1 (C4_get_srid wgs84_field
                    {| shape := "POINT(5 23)"; srid := None |})).
    left. reflexivity.
  - apply (proj1 (C4_get_srid wgs84_field
                    {| shape := "POINT(5 23)"; srid := Some (-1)%Z |})).
    right. split; [reflexivity | discriminate].
  - apply (proj1 (proj2 (C4_get_srid wgs84_field
                    {| shape := "POINT(5 23)"; srid := Some 32140%Z |}))).
    intros [H | [H _]]; discriminate.
Defined.

(** C5, as stated, fails: a tuple is neither a backend Geometry nor a
    string, and [get_geometry] returns its first element instead of raising
    TypeError (on an empty tuple it raises IndexError); and a ValueError of
    the constructor itself passes through [get_geometry], so that
    ValueError is raised although the constructor raised no
    GeometryException. *)
Lemma C5_counterexample :
  isinstance_Geometry (VTuple [VGeom pnt; VNum 3%Z] : V) = false
  /\ isinstance_basestring (VTuple [VGeom pnt; VNum 3%Z] : V) = false
  /\ get_geometry wgs84_field (VTuple [VGeom pnt; VNum 3%Z] : V) store
     = (Return pnt, {[ pnt := {| shape := "POINT(5 23)"; srid := Some 4326%Z |} ]})
  /\ is_TypeError (fst (get_geometry wgs84_field (VTuple [VGeom pnt; VNum 3%Z] : V) store))
     = false
  /\ get_geometry wgs84_field (VTuple [] : V) store
     = (Raise (IndexError "index out of range"), store)
  /\ is_GeometryException (Geometry "junk") = false
  /\ is_ValueError (fst (get_geometry wgs84_field (VStr "junk" : V) store)) = true.
Proof.
  split; [reflexivity|]. split; [reflexivity|].
  split; [vm_compute; reflexivity|].
  split; [vm_compute; reflexivity|].
  split; [reflexivity|].
  split; reflexivity.
Qed.

(** A text the constructor accepts, one it rejects with its
    GeometryException, and a number. *)
Lemma C5_get_geometry_delegates_run :
  get_geometry wgs84_field (VStr "POINT(1 1)" : V) store
  = (Return 2%positive,
     <[2%positive := {| shape := "POINT(1 1)"; srid := Some 4326%Z |}]> store)
  /\ get_geometry wgs84_field (VStr "POINT 1 1" : V) store
     = (Raise (ValueError "Could not create geometry from lookup value: %s"), store)
  /\ is_TypeError (fst (get_geometry wgs84_field (VNum 3%Z : V) store)) = true.
Proof.
  split; [|split].
  - exact (proj1 (C5_get_geometry_delegates wgs84_field (VStr "POINT(1 1)" : V) store)
                 "POINT(1 1)" eq_refl).
  - exact (proj1 (C5_get_geometry_delegates wgs84_field (VStr "POINT 1 1" : V) store)
                 "POINT 1 1" eq_refl).
  - exact (proj1 (proj1 (proj2 (proj2 (C5_get_geometry_delegates wgs84_field
                                         (VNum 3%Z : V) store)))
                        (VNum 3%Z) eq_refl eq_refl eq_refl)).
Defined.

(** A distance lookup on a (geometry, number) pair; a 'contains' lookup on a
    text with one more element, which is quoted. *)
Lemma C6_get_db_prep_lookup_run :
  In "distance_lte" gis_terms /\ "distance_lte" <> "isnull"
  /\ get_db_prep_lookup wgs84_field "distance_lte"
       (VTuple [VGeom pnt; VNum 3%Z] : V) store
     = (Return ([VStr "%s"; VNum 3%Z], [VAdaptor pnt]),
        {[ pnt := {| shape := "POINT(5 23)"; srid := Some 4326%Z |} ]}).
Proof.
  assert (Hin : In "distance_lte" gis_terms) by (simpl; tauto).
  assert (Hne : "distance_lte" <> "isnull") by discriminate.
  split; [exact Hin|]. split; [exact Hne|].
  pose proof (C6_get_db_prep_lookup wgs84_field "distance_lte"
                (VTuple [VGeom pnt; VNum 3%Z] : V) store Hin Hne) as H.
  vm_compute in H. destruct H as (g & Hg & H).
  injection Hg as <-. vm_compute. exact H.
Defined.

(** C6, as stated, fails: for lookup types of [gis_terms] other than
    'isnull' no pair is returned when the value holds no geometry
    (TypeError), when a distance lookup has no distance (ValueError), and
    when the distance is refused (TypeError). *)
Lemma C6_counterexample :
  In "contains" gis_terms /\ "contains" <> "isnull"
  /\ get_db_prep_lookup wgs84_field "contains" (VNum 3%Z : V) store
     = (Raise (TypeError "Cannot use parameter of `%s` type as lookup parameter."),
        store)
  /\ In "distance_lte" gis_terms /\ "distance_lte" <> "isnull"
  /\ is_ValueError (fst (get_db_prep_lookup wgs84_field "distance_lte"
                           (VTuple [VGeom pnt] : V) store)) = true
  /\ In "dwithin" gis_terms /\ "dwithin" <> "isnull"
  /\ is_TypeError (fst (get_db_prep_lookup wgs84_field "dwithin"
                          (VTuple [VGeom pnt; VDistance (D_km 1)] : V) store))
     = true.
Proof.
  repeat split; try discriminate; try (simpl; tauto); vm_compute; reflexivity.
Qed.

(** The geometry passed in is the object returned, now with the field's
    SRID. *)
Lemma C8_srid_assigned_run :
  get_geometry wgs84_field (VGeom pnt : V) store
  = (Return pnt, <[pnt := {| shape := "POINT(5 23)"; srid := Some 4326%Z |}]> store).
Proof.
  exact (proj1 (proj2 (C8_srid_assigned (Dist := Z) wgs84_field))
               (VGeom pnt) store pnt
               {| shape := "POINT(5 23)"; srid := None |} eq_refl eq_refl).
Defined.

(** 'isnull' is a term of the sample backend; 'foo' is not. *)
Lemma C10_invalid_and_isnull_run :
  In "isnull" gis_terms
  /\ get_db_prep_lookup metre_field "isnull" (VBool true : V) store
     = (Return ([], []), store)
  /\ get_db_prep_lookup metre_field "foo" (VBool true : V) store
     = (Raise (TypeError "Field has invalid lookup: %s"), store).
Proof.
  assert (Hin : In "isnull" gis_terms) by (simpl; tauto).
  split; [exact Hin|]. split.
  - exact (proj2 (C10_invalid_and_isnull metre_field) Hin (VBool true) store).
  - apply (proj1 (C10_invalid_and_isnull metre_field)).
    simpl. intros H. repeat (destruct H as [H|H]; [discriminate|]). exact H.
Defined.

End Runs.

(** ** Further properties of the field's methods *)

Section Coverage.
Context {Num Dist Shape : Type}.
Context {SpatialBackend : SpatialBackendT Num Shape} {imports : Imports Num Dist}.

Implicit Types (self : Field Num) (geom : Geom Shape) (h : gmap loc (Geom Shape)).
Implicit Types (v dist option x : value Num Dist) (lookup_type : string).
Implicit Types (xs : list (value Num Dist)).

(** Assigning the SRID that [get_srid] chose and asking again gives the
    same SRID. *)
Lemma get_srid_idempotent self geom :
  get_srid self (set_srid geom (get_srid self geom)) = get_srid self geom.
Proof.
  assert (Hfix : forall s : Z,
             get_srid self geom = Some s ->
             get_srid self (set_srid geom (Some s)) = Some s).
  { intros s. unfold get_srid at 1. intros Hs. unfold get_srid, set_srid. simpl.
    destruct (Z.eqb_spec (_srid self) (-1)) as [Hf|Hf]; simpl in *.
    - rewrite andb_false_r. reflexivity.
    - rewrite andb_true_r in *.
      destruct (decide (s = (-1)%Z)) as [->|Hne].
      + exfalso. revert Hs.
        repeat case_bool_decide; simpl; congruence.
      + rewrite bool_decide_eq_false_2 by congruence. reflexivity. }
  destruct (get_srid self geom) as [s|] eqn:Hs.
  - now apply Hfix.
  - now apply get_srid_not_None in Hs.
Qed.

Lemma set_srid_same geom : set_srid geom (srid geom) = geom.
Proof. now destruct geom. Qed.

(** When [get_geometry] raises, no object has been touched. *)
Lemma get_geometry_raises_unchanged self v h (e : exn) h' :
  get_geometry self v h = (Raise e, h') -> h' = h.
Proof.
  intros Hget.
  destruct (geom_part v) as [x|e0] eqn:Hp.
  - destruct x;
      try (rewrite (get_geometry_other self v h _ Hp eq_refl eq_refl) in Hget;
           congruence).
    + rewrite (get_geometry_string self v h s Hp) in Hget.
      destruct (Geometry s) as [g|e1]; [discriminate | congruence].
    + destruct (h !! g) as [g0|] eqn:Hl.
      * rewrite (get_geometry_object self v h g g0 Hp Hl) in Hget. discriminate.
      * rewrite (get_geometry_dangling self v h g Hp Hl) in Hget. congruence.
  - rewrite (get_geometry_no_part self v h e0 Hp) in Hget. congruence.
Qed.

(** X1: [get_geometry] is idempotent: called again on the geometry it
    returned, it returns the same object and leaves the store as it is. *)
Theorem X1_get_geometry_idempotent self v h (l : loc) h' :
  get_geometry self v h = (Return l, h') ->
  get_geometry self (VGeom l : value Num Dist) h' = (Return l, h').
Proof.
  intros Hget. apply get_geometry_returns in Hget as (g0 & -> & _).
  rewrite (get_geometry_object self (VGeom l : value Num Dist) _ l
             (set_srid g0 (get_srid self g0)) eq_refl (lookup_insert_eq _ _ _)).
  rewrite get_srid_idempotent. rewrite insert_insert_eq. reflexivity.
Qed.

(** X2: a geometry that carries an SRID of its own (any SRID but -1, or -1
    when the field's SRID is -1 too) comes back from [get_geometry] with the
    store exactly as it was. *)
Theorem X2_own_srid_kept self v h (l : loc) (g : Geom Shape) (s : Z) :
  geom_part v = Return (VGeom l) -> h !! l = Some g ->
  srid g = Some s -> (s <> (-1)%Z \/ _srid self = (-1)%Z) ->
  get_geometry self v h = (Return l, h).
Proof.
  intros Hp Hl Hs Hown.
  rewrite (get_geometry_object self v h l g Hp Hl).
  assert (Hsame : get_srid self g = srid g).
  { unfold get_srid. rewrite Hs.
    repeat (case_bool_decide; simpl);
      destruct (Z.eqb_spec (_srid self) (-1)); simpl; try congruence;
      destruct Hown; congruence. }
  rewrite Hsame, set_srid_same. now rewrite insert_id.
Qed.

(** X3: for a lookup type of [gis_terms] other than 'isnull', the store
    [get_db_prep_lookup] leaves behind is the one [get_geometry] leaves
    behind, whether the lookup returns or raises; no object disappears, and
    the only object that can differ from before is the geometry found. *)
Theorem X3_lookup_store self lookup_type v h :
  In lookup_type gis_terms -> lookup_type <> "isnull" ->
  snd (get_db_prep_lookup self lookup_type v h) = snd (get_geometry self v h)
  /\ dom h ⊆ dom (snd (get_db_prep_lookup self lookup_type v h))
  /\ (forall l' : loc,
        snd (get_db_prep_lookup self lookup_type v h) !! l' <> h !! l' ->
        fst (get_geometry self v h) = Return l').
Proof.
  intros Hin Hnull.
  apply py_in_In in Hin. apply String.eqb_neq in Hnull.
  assert (Hsnd : snd (get_db_prep_lookup self lookup_type v h)
                 = snd (get_geometry self v h)).
  { destruct (get_geometry self v h) as [[l|e] h'] eqn:Hget.
    - destruct (get_geometry_live _ _ _ _ _ Hget) as (g & Hg & _).
      rewrite (get_db_prep_lookup_found _ _ _ _ _ _ _ Hin Hnull Hget Hg).
      cbv zeta. destruct (as_sequence v); [|reflexivity].
      destruct (py_in lookup_type distance_functions); [reflexivity|].
      destruct (py_in lookup_type limited_where); reflexivity.
    - unfold get_db_prep_lookup. rewrite Hin, Hnull.
      unfold bind. now rewrite Hget. }
  rewrite Hsnd. split; [reflexivity|].
  destruct (get_geometry self v h) as [[l|e] h'] eqn:Hget; simpl.
  - apply get_geometry_returns in Hget as (g0 & -> & _). split.
    + rewrite dom_insert_L. set_solver.
    + intros l' Hne. destruct (decide (l = l')) as [->|Hll]; [reflexivity|].
      now rewrite lookup_insert_ne in Hne.
  - apply get_geometry_raises_unchanged in Hget as ->. split.
    + reflexivity.
    + intros l' Hne. congruence.
Qed.

(** X4: a distance lookup whose distance is refused still assigns the SRID:
    when the value is a sequence that starts with a geometry object and
    [get_distance] raises on the remaining elements, [get_db_prep_lookup]
    raises that exception and the geometry has already been updated. *)
Theorem X4_failed_distance_keeps_srid self lookup_type v xs h
    (l : loc) (g : Geom Shape) (e : exn) :
  In lookup_type gis_terms -> lookup_type <> "isnull" ->
  In lookup_type distance_functions ->
  as_sequence v = Some (VGeom l :: xs) -> h !! l = Some g ->
  get_distance self xs lookup_type = Raise e ->
  get_db_prep_lookup self lookup_type v h =
  (Raise e, <[l := set_srid g (get_srid self g)]> h).
Proof.
  intros Hin Hnull Hdist Hseq Hl Hraise.
  apply py_in_In in Hin, Hdist. apply String.eqb_neq in Hnull.
  assert (Hp : geom_part v = Return (VGeom l)).
  { destruct v; simpl in Hseq; try discriminate;
      injection Hseq as ->; reflexivity. }
  pose proof (get_geometry_object self v h l g Hp Hl) as Hget.
  rewrite (get_db_prep_lookup_found _ _ _ _ _ _
             (set_srid g (get_srid self g)) Hin Hnull Hget
             (lookup_insert_eq _ _ _)).
  cbv zeta. rewrite Hseq, Hdist. unfold rest. simpl. now rewrite Hraise.
Qed.

(** X5: [get_geometry] changes the store only when it returns: when it
    raises, the store is as before; when it returns, the objects of the
    store are those of before and the geometry returned. *)
Theorem X5_get_geometry_footprint self v h :
  match get_geometry self v h with
  | (Raise _, h') => h' = h
  | (Return l, h') => dom h' = {[ l ]} ∪ dom h
  end.
Proof.
  destruct (get_geometry self v h) as [[l|e] h'] eqn:Hget.
  - apply get_geometry_returns in Hget as (g0 & -> & _).
    apply dom_insert_L.
  - eapply get_geometry_raises_unchanged; eassumption.
Qed.

(** X6: a geometry built from a string is a new object: its identity was
    not in use, every object of the store stays as it was, and the new
    object is what the constructor built, with the SRID assigned. *)
Theorem X6_string_makes_new_object self v h (s : string) (l : loc) h' :
  geom_part v = Return (VStr s) ->
  get_geometry self v h = (Return l, h') ->
  h !! l = None
  /\ (forall l' : loc, l' <> l -> h' !! l' = h !! l')
  /\ (forall l' : loc, is_Some (h !! l') -> h' !! l' = h !! l')
  /\ exists g : Geom Shape,
       Geometry s = Return g
       /\ h' !! l = Some (set_srid g (get_srid self g)).
Proof.
  intros Hp Hget.
  rewrite (get_geometry_string self v h s Hp) in Hget.
  destruct (Geometry s) as [g|e] eqn:Hc; [|discriminate].
  injection Hget as <- <-.
  assert (Hfresh : h !! fresh (dom h) = None).
  { apply not_elem_of_dom. apply is_fresh. }
  split; [exact Hfresh|]. split; [|split].
  - intros l' Hne. now rewrite lookup_insert_ne.
  - intros l' [g' Hg']. rewrite lookup_insert_ne; [reflexivity|].
    intros <-. congruence.
  - exists g. split; [reflexivity|]. apply lookup_insert_eq.
Qed.

(** X7: a tuple or list value is unwrapped one level only.  When its first
    element is no tuple or list, [get_geometry] on the value and on the
    element alone agree: both return the same geometry or both raise an
    exception of the same class, and they leave the same store.  When the
    first element is itself a tuple or list, TypeError is raised and no
    object is touched. *)
Theorem X7_one_level_unwrap self x xs h :
  match as_sequence x with
  | None =>
      agree (fst (get_geometry self (VTuple (x :: xs)) h))
            (fst (get_geometry self x h))
      /\ snd (get_geometry self (VTuple (x :: xs)) h)
         = snd (get_geometry self x h)
      /\ agree (fst (get_geometry self (VList (x :: xs)) h))
               (fst (get_geometry self x h))
      /\ snd (get_geometry self (VList (x :: xs)) h)
         = snd (get_geometry self x h)
  | Some _ =>
      is_TypeError (fst (get_geometry self (VTuple (x :: xs)) h)) = true
      /\ snd (get_geometry self (VTuple (x :: xs)) h) = h
      /\ is_TypeError (fst (get_geometry self (VList (x :: xs)) h)) = true
      /\ snd (get_geometry self (VList (x :: xs)) h) = h
  end.
Proof.
  assert (Hrefl : forall r : result loc, agree r r).
  { intros [a|e]; reflexivity. }
  destruct (as_sequence x) as [ys|] eqn:Hx.
  - destruct x; simpl in Hx; try discriminate; repeat split; reflexivity.
  - assert (Ht : get_geometry self (VTuple (x :: xs)) h = get_geometry self x h)
      by (destruct x; simpl in Hx; try discriminate; reflexivity).
    assert (Hl : get_geometry self (VList (x :: xs)) h = get_geometry self x h)
      by (destruct x; simpl in Hx; try discriminate; reflexivity).
    rewrite Ht, Hl. repeat split; apply Hrefl.
Qed.

(** X8: a distance lookup needs one or two elements after the geometry:
    when the geometry of a sequence value is found, the lookup returns only
    for values of two or three elements, and raises ValueError for any
    other length, the store being the one [get_geometry] left. *)
Theorem X8_distance_lookup_arity self lookup_type v xs h (l : loc) h' :
  In lookup_type gis_terms -> lookup_type <> "isnull" ->
  In lookup_type distance_functions ->
  as_sequence v = Some xs ->
  get_geometry self v h = (Return l, h') ->
  (is_Return (fst (get_db_prep_lookup self lookup_type v h)) = true ->
   length xs = 2%nat \/ length xs = 3%nat)
  /\ (length xs <> 2%nat -> length xs <> 3%nat ->
      is_ValueError (fst (get_db_prep_lookup self lookup_type v h)) = true
      /\ snd (get_db_prep_lookup self lookup_type v h) = h').
Proof.
  intros Hin Hnull Hdist Hseq Hget.
  apply py_in_In in Hin, Hdist. apply String.eqb_neq in Hnull.
  destruct (get_geometry_live _ _ _ _ _ Hget) as (g & Hg & _).
  rewrite (get_db_prep_lookup_found _ _ _ _ _ _ _ Hin Hnull Hget Hg).
  cbv zeta. rewrite Hseq, Hdist. unfold rest.
  destruct xs as [|a [|b [|c [|d tl]]]]; simpl.
  - split; [discriminate | auto].
  - split; [discriminate | auto].
  - split; [auto | intros Hc; contradiction].
  - split; [auto | intros _ Hc; contradiction].
  - split; [discriminate | auto].
Qed.

(** *** More on lookups and distances *)


(** X12: a distance that is no [Distance] object is never refused and
    never converted, on any field and for any lookup type: alone it comes
    back as the one-element list, with an option it ends the list, and for
    'dwithin' the option plays no role. *)
Theorem X12_plain_distance self dist option lookup_type :
  isinstance_Distance dist = false ->
  get_distance self [dist] lookup_type = Return [dist]
  /\ (exists front : list (value Num Dist),
        get_distance self [dist; option] lookup_type = Return (front ++ [dist])
        /\ (front = [] \/ front = [gqn (value_of_opt_str (_spheroid self))]))
  /\ get_distance self [dist; option] "dwithin" = Return [dist].
Proof.
  intros Hplain.
  rewrite (get_distance_unpacked self [dist] dist VNone) by reflexivity.
  rewrite !(get_distance_unpacked self [dist; option] dist option) by reflexivity.
  rewrite !dist_param_of_plain by assumption.
  split; [|split].
  - unfold spheroid_case. simpl. now rewrite andb_false_r.
  - destruct (spheroid_case self lookup_type option).
    + exists [gqn (value_of_opt_str (_spheroid self))]. auto.
    + exists []. auto.
  - unfold spheroid_case. simpl. now rewrite andb_false_r.
Qed.

(** X13: on a field whose SRID is not -1, a geometry returned by
    [get_geometry] has a proper SRID: neither None nor -1. *)
Theorem X13_proper_srid self v h (l : loc) h' :
  _srid self <> (-1)%Z ->
  get_geometry self v h = (Return l, h') ->
  exists (g' : Geom Shape) (s : Z),
    h' !! l = Some g' /\ srid g' = Some s /\ s <> (-1)%Z.
Proof.
  intros Hfield Hget.
  apply get_geometry_returns in Hget as (g0 & -> & _).
  rewrite lookup_insert_eq.
  destruct (get_srid self g0) as [s|] eqn:Hs;
    [|now apply get_srid_not_None in Hs].
  exists (set_srid g0 (Some s)), s. split; [reflexivity|].
  split; [reflexivity|].
  intros ->. revert Hs. unfold get_srid.
  destruct (srid g0) as [s0|];
    repeat (case_bool_decide; simpl);
    destruct (Z.eqb_spec (_srid self) (-1)); simpl; congruence.
Qed.

End Coverage.

(** ** The further properties on the sample configuration *)

Section CoverageRuns.
Import Sample.

Local Abbreviation V := (value Z Z).
Local Abbreviation pnt_4326 :=
  ({[ pnt := {| shape := "POINT(5 23)"; srid := Some 4326%Z |} ]}
     : gmap loc (Geom string)).

(** Looking the sample point up twice is looking it up once. *)
Lemma X1_get_geometry_idempotent_run :
  get_geometry wgs84_field (VTuple [VGeom pnt; VNum 3%Z] : V) store
  = (Return pnt, pnt_4326)
  /\ get_geometry wgs84_field (VGeom pnt : V) pnt_4326 = (Return pnt, pnt_4326).
Proof.
  assert (H : get_geometry wgs84_field (VTuple [VGeom pnt; VNum 3%Z] : V) store
              = (Return pnt, pnt_4326)) by (vm_compute; reflexivity).
  split; [exact H|].
  exact (X1_get_geometry_idempotent wgs84_field _ store pnt pnt_4326 H).
Defined.

(** A WGS84 point looked up on the field in metres keeps SRID 4326. *)
Lemma X2_own_srid_kept_run :
  get_geometry metre_field (VGeom pnt : V) pnt_4326 = (Return pnt, pnt_4326).
Proof.
  apply (X2_own_srid_kept metre_field (VGeom pnt : V) pnt_4326 pnt
           {| shape := "POINT(5 23)"; srid := Some 4326%Z |} 4326%Z).
  - reflexivity.
  - reflexivity.
  - reflexivity.
  - left. discriminate.
Defined.

(** A 'dwithin' lookup with [D(km=1)] on the WGS84 field raises, and leaves
    the store [get_geometry] leaves. *)
Lemma X3_lookup_store_run :
  In "dwithin" gis_terms /\ "dwithin" <> "isnull"
  /\ snd (get_db_prep_lookup wgs84_field "dwithin"
            (VTuple [VGeom pnt; VDistance (D_km 1)] : V) store)
     = snd (get_geometry wgs84_field
              (VTuple [VGeom pnt; VDistance (D_km 1)] : V) store).
Proof.
  assert (Hin : In "dwithin" gis_terms) by (simpl; tauto).
  assert (Hne : "dwithin" <> "isnull") by discriminate.
  split; [exact Hin|]. split; [exact Hne|].
  exact (proj1 (X3_lookup_store wgs84_field "dwithin"
                  (VTuple [VGeom pnt; VDistance (D_km 1)] : V) store Hin Hne)).
Defined.

(** The refused 'dwithin' lookup has given the point SRID 4326. *)
Lemma X4_failed_distance_keeps_srid_run :
  get_db_prep_lookup wgs84_field "dwithin"
    (VTuple [VGeom pnt; VDistance (D_km 1)] : V) store
  = (Raise (TypeError "Only numeric values of degree units are allowed on geographic DWithin queries."),
     <[pnt := {| shape := "POINT(5 23)"; srid := Some 4326%Z |}]> store).
Proof.
  apply (X4_failed_distance_keeps_srid wgs84_field "dwithin"
           (VTuple [VGeom pnt; VDistance (D_km 1)] : V)
           [VDistance (D_km 1)] store pnt
           {| shape := "POINT(5 23)"; srid := None |}).
  - simpl; tauto.
  - discriminate.
  - simpl; tauto.
  - reflexivity.
  - reflexivity.
  - reflexivity.
Defined.

(** A point built from text is object 2, not in the sample store before. *)
Lemma X6_string_makes_new_object_run :
  store !! 2%positive = None
  /\ get_geometry metre_field (VStr "POINT(1 1)" : V) store
     = (Return 2%positive,
        <[2%positive := {| shape := "POINT(1 1)"; srid := Some 32140%Z |}]> store).
Proof.
  assert (H : get_geometry metre_field (VStr "POINT(1 1)" : V) store
     = (Return 2%positive,
        <[2%positive := {| shape := "POINT(1 1)"; srid := Some 32140%Z |}]> store))
    by (vm_compute; reflexivity).
  split; [|exact H].
  exact (proj1 (X6_string_makes_new_object metre_field (VStr "POINT(1 1)" : V)
                  store "POINT(1 1)" 2%positive _ eq_refl H)).
Defined.

(** A distance lookup on the one-element tuple raises ValueError. *)
Lemma X8_distance_lookup_arity_run :
  is_ValueError (fst (get_db_prep_lookup wgs84_field "distance_lte"
                        (VTuple [VGeom pnt] : V) store)) = true
  /\ snd (get_db_prep_lookup wgs84_field "distance_lte"
            (VTuple [VGeom pnt] : V) store) = pnt_4326.
Proof.
  assert (Hget : get_geometry wgs84_field (VTuple [VGeom pnt] : V) store
                 = (Return pnt, pnt_4326)) by (vm_compute; reflexivity).
  assert (Hin : In "distance_lte" gis_terms) by (simpl; tauto).
  assert (Hne : "distance_lte" <> "isnull") by discriminate.
  assert (Hd : In "distance_lte" distance_functions) by (simpl; tauto).
  apply (proj2 (X8_distance_lookup_arity wgs84_field "distance_lte"
                  (VTuple [VGeom pnt] : V) [VGeom pnt] store pnt pnt_4326
                  Hin Hne Hd eq_refl Hget)).
  - discriminate.
  - discriminate.
Defined.


(** The number 5 is passed on for 'dwithin' on the WGS84 field, with or
    without an option. *)
Lemma X12_plain_distance_run :
  get_distance wgs84_field [VNum 5%Z] "dwithin" = Return [VNum 5%Z]
  /\ get_distance wgs84_field [VNum 5%Z; VStr "spheroid"] "dwithin"
     = Return [VNum 5%Z].
Proof.
  pose proof (X12_plain_distance wgs84_field (VNum 5%Z) (VStr "spheroid")
                "dwithin" eq_refl) as (H1 & _ & H3).
  split; [exact H1 | exact H3].
Defined.

(** A point with SRID -1 gets the field's SRID on the WGS84 field. *)
Lemma X13_proper_srid_run :
  exists (g' : Geom string) (s : Z),
    pnt_4326 !! pnt = Some g' /\ srid g' = Some s /\ s <> (-1)%Z.
Proof.
  apply (X13_proper_srid (Dist := Z) wgs84_field (VGeom pnt)
           {[ pnt := {| shape := "POINT(5 23)"; srid := Some (-1)%Z |} ]}
           pnt pnt_4326).
  - discriminate.
  - vm_compute. reflexivity.
Defined.

End CoverageRuns.
